(** * Runner training progression models

    A shallow embedding of the model evaluation engine of
    [src/runner_training]: [models/base.py], [models/exponential.py],
    [models/linear.py], [models/factory.py] and [utils/validators.py].

    Python's [float] is IEEE 754 binary64.  The code is embedded twice.

    - [B64] reads every [float] as a primitive binary64 float, so [+], [-],
      [*], [/], the comparisons, [min] and [max] compute exactly what
      CPython computes.  Python's exceptions are results of the [result]
      type.  The two operations that CPython hands to the C library,
      [a ** x] and [math.log], are parameters ([libm_pow], [libm_log]).
    - [Exact] reads every [float] as a real number and [**], [math.log] as
      [Rpower] and [ln].  It is the arithmetic the closed-form curves are
      stated in; binary64 follows it up to rounding.  *)

From Stdlib Require Import Floats ZArith Bool String Ascii List Reals Lra Lia.
Import ListNotations.

#[local] Set Warnings "-inexact-float".

(** ** Exceptions and results *)

(** The pieces of an f-string: literal text and formatted numbers. *)
Inductive fragment (F : Type) : Type :=
| Str (s : string)
| Num (x : F).
Arguments Str {F} s.
Arguments Num {F} x.

(** The exceptions the engine can raise.  [ValueError] carries its
    message.  [ZeroDivisionError] is what float division raises on a zero
    divisor; [KeyError] is what a dict subscript raises. *)
Inductive exn (F : Type) : Type :=
| ValueError (msg : list (fragment F))
| ZeroDivisionError
| KeyError (key : string).
Arguments ValueError {F} msg.
Arguments ZeroDivisionError {F}.
Arguments KeyError {F} key.

Inductive result (F A : Type) : Type :=
| Return (a : A)
| Raise (e : exn F).
Arguments Return {F A} a.
Arguments Raise {F A} e.

Definition bind {F A B} (m : result F A) (k : A -> result F B) : result F B :=
  match m with
  | Return a => k a
  | Raise e => Raise e
  end.

Declare Scope py_scope.
Delimit Scope py_scope with py.
Notation "x <- m ;; k" := (bind m (fun x => k))
  (at level 61, m at next level, right associativity) : py_scope.
Notation "m ;;; k" := (bind m (fun _ => k))
  (at level 61, right associativity) : py_scope.

Definition succeeds {F A} (m : result F A) : Prop :=
  exists a, m = Return a.

Definition succeedsb {F A} (m : result F A) : bool :=
  match m with Return _ => true | Raise _ => false end.

(** [if c: raise ValueError(msg)] *)
Definition raise_if {F} (c : bool) (msg : list (fragment F)) : result F unit :=
  if c then Raise (ValueError msg) else Return tt.

(** ** The model parameters (dataclass [ModelParameters]) *)

Record ModelParameters (F : Type) : Type := {
  target_mileage : F;
  starting_mileage : F;
  a_parameter : F;
  b_parameter : F
}.
Arguments target_mileage {F} _.
Arguments starting_mileage {F} _.
Arguments a_parameter {F} _.
Arguments b_parameter {F} _.
Arguments Build_ModelParameters {F} _ _ _ _.

(** The two concrete subclasses of [BaseTrainingModel]; an instance holds
    its class and [self.params]. *)
Inductive model_class := ExponentialClass | LinearClass.

Record BaseTrainingModel (F : Type) : Type := {
  class_of : model_class;
  params : ModelParameters F
}.
Arguments class_of {F} _.
Arguments params {F} _.
Arguments Build_BaseTrainingModel {F} _ _.

(** The [model_type] property. *)
Definition model_type {F} (m : BaseTrainingModel F) : string :=
  match class_of m with
  | ExponentialClass => "exponential"
  | LinearClass => "linear"
  end.

(** ** Strings: [str.lower], [in], [", ".join] *)

Definition lower_ascii (c : ascii) : ascii :=
  let n := nat_of_ascii c in
  if (65 <=? n)%nat && (n <=? 90)%nat then ascii_of_nat (n + 32) else c.

(** [s.lower()] on a tag.  Tags are read as ASCII strings: [A]-[Z] map to
    [a]-[z], every other character is kept. *)
Fixpoint lower (s : string) : string :=
  match s with
  | EmptyString => EmptyString
  | String c s' => String (lower_ascii c) (lower s')
  end.

(** [key in d] and [d[key]] for a dict kept in insertion order. *)
Fixpoint dict_get {V} (key : string) (d : list (string * V)) : option V :=
  match d with
  | [] => None
  | (k, v) :: d' => if String.eqb key k then Some v else dict_get key d'
  end.

Definition dict_contains {V} (key : string) (d : list (string * V)) : bool :=
  match dict_get key d with Some _ => true | None => false end.

Definition dict_keys {V} (d : list (string * V)) : list string := map fst d.

(** [sep.join(l)] *)
Definition join (sep : string) (l : list string) : string := String.concat sep l.

(** * The binary64 reading *)

Module B64.

#[local] Open Scope float_scope.
#[local] Open Scope py_scope.

Abbreviation params64 := (ModelParameters float).
Abbreviation res := (result float).

(** Python's comparison operators on floats.  [x > y] and [x >= y] are
    [y < x] and [y <= x]; every comparison with NaN is [False]. *)
Definition gtb (x y : float) : bool := y <? x.
Definition geb (x y : float) : bool := y <=? x.

(** [x / y]: CPython raises [ZeroDivisionError] when the divisor compares
    equal to zero, and otherwise divides as IEEE 754 does. *)
Definition py_div (x y : float) : res float :=
  if y =? 0 then Raise ZeroDivisionError else Return (x / y).

(** [min(x, y)] and [max(x, y)] keep the first argument unless the second
    is strictly smaller (larger). *)
Definition py_min (x y : float) : float := if y <? x then y else x.
Definition py_max (x y : float) : float := if gtb y x then y else x.

(** [ModelParameters.__post_init__] *)
Definition __post_init__ (self : params64) : res unit :=
  raise_if (target_mileage self <=? 0) [Str "Target mileage must be positive"] ;;;
  raise_if (starting_mileage self <? 0) [Str "Starting mileage must be non-negative"] ;;;
  Return tt.

(** [ModelParameters(target_mileage, starting_mileage, a_parameter, b_parameter)] *)
Definition new_ModelParameters (target starting a b : float) : res params64 :=
  let self := Build_ModelParameters target starting a b in
  __post_init__ self ;;;
  Return self.

(** [BaseTrainingModel.__init__]: store the parameters, then run the
    subclass's [_validate_parameters]. *)
Definition __init__ (cls : model_class) (_validate_parameters : params64 -> res unit)
    (params : params64) : res (BaseTrainingModel float) :=
  _validate_parameters params ;;;
  Return (Build_BaseTrainingModel cls params).

Definition week_must_be_non_negative (week : float) : res unit :=
  raise_if (week <? 0) [Str "Week must be non-negative, got "; Num week].

(** ** [ExponentialModel] *)

Module ExponentialModel.

(** The parameters of a valid exponential model, as the spec lists them:
    [T > 0], [0 <= S < T], [0 < a < 1], [b > 0]. *)
Definition valid (self : params64) : bool :=
  (0 <? target_mileage self) &&
  (0 <=? starting_mileage self) &&
  (starting_mileage self <? target_mileage self) &&
  (0 <? a_parameter self) && (a_parameter self <? 1) &&
  (0 <? b_parameter self).

Definition _validate_parameters (self : params64) : res unit :=
  raise_if (negb ((0 <? a_parameter self) && (a_parameter self <? 1)))
    [Str "Parameter 'a' must be in (0, 1), got "; Num (a_parameter self)] ;;;
  raise_if (b_parameter self <=? 0)
    [Str "Parameter 'b' must be positive, got "; Num (b_parameter self)] ;;;
  raise_if (geb (starting_mileage self) (target_mileage self))
    [Str "Starting mileage must be less than target mileage for exponential model"] ;;;
  Return tt.

Definition new (params : params64) : res (BaseTrainingModel float) :=
  __init__ ExponentialClass _validate_parameters params.

Section Libm.

(** The C library's [pow] and [log], which CPython calls. *)
Variable libm_pow : float -> float -> float.
Variable libm_log : float -> float.

(** [v ** w] on floats.  CPython answers [1.0] for a zero exponent itself
    (as C's [pow] must) and otherwise asks the C library.  The errors of
    [float.__pow__] need a base that is zero or negative, or an overflow;
    the model raises no error there, and the callers below pass a base
    in (0, 1) with an exponent that is not negative. *)
Definition float_pow (v w : float) : float :=
  if w =? 0 then 1 else libm_pow v w.

(** [math.log(x)]: a domain error at zero and below. *)
Definition math_log (x : float) : res float :=
  if x <=? 0 then Raise (ValueError [Str "math domain error"])
  else Return (libm_log x).

Definition calculate_mileage (self : params64) (week : float) : res float :=
  week_must_be_non_negative week ;;;
  let T := target_mileage self in
  let S := starting_mileage self in
  let a := a_parameter self in
  let b := b_parameter self in
  exponent <- py_div week b ;;
  let decay_factor := float_pow a exponent in
  Return (T - (T - S) * decay_factor).

(** [Optional[float]]: [None] is "no solution", [Some infinity] is
    [float('inf')]. *)
Definition calculate_week (self : params64) (mileage : float) : res (option float) :=
  let S := starting_mileage self in
  let T := target_mileage self in
  if negb ((S <=? mileage) && (mileage <=? T)) then Return None
  else if mileage =? T then Return (Some infinity)
  else
    let a := a_parameter self in
    let b := b_parameter self in
    ratio <- py_div (T - mileage) (T - S) ;;
    if ratio <=? 0 then Return None
    else
      log_ratio <- math_log ratio ;;
      log_a <- math_log a ;;
      week <- py_div (b * log_ratio) log_a ;;
      Return (Some (py_max 0 week)).

Definition calculate_rate_of_change (self : params64) (week : float) : res float :=
  week_must_be_non_negative week ;;;
  let T := target_mileage self in
  let S := starting_mileage self in
  let a := a_parameter self in
  let b := b_parameter self in
  coefficient <- py_div (- (T - S)) b ;;
  exponent <- py_div week b ;;
  let exponential := float_pow a exponent in
  log_a <- math_log a ;;
  Return (coefficient * exponential * log_a).

End Libm.

End ExponentialModel.

(** ** [LinearModel] *)

Module LinearModel.

(** The parameters of a valid linear model: [T > 0], [0 <= S <= T],
    [a > 0], [b > 0]. *)
Definition valid (self : params64) : bool :=
  (0 <? target_mileage self) &&
  (0 <=? starting_mileage self) &&
  (starting_mileage self <=? target_mileage self) &&
  (0 <? a_parameter self) &&
  (0 <? b_parameter self).

Definition _validate_parameters (self : params64) : res unit :=
  raise_if (a_parameter self <=? 0)
    [Str "Parameter 'a' must be positive for linear model, got "; Num (a_parameter self)] ;;;
  raise_if (b_parameter self <=? 0)
    [Str "Parameter 'b' must be positive, got "; Num (b_parameter self)] ;;;
  raise_if (gtb (starting_mileage self) (target_mileage self))
    [Str "Starting mileage cannot exceed target mileage"] ;;;
  Return tt.

Definition new (params : params64) : res (BaseTrainingModel float) :=
  __init__ LinearClass _validate_parameters params.

Definition calculate_mileage (self : params64) (week : float) : res float :=
  week_must_be_non_negative week ;;;
  let S := starting_mileage self in
  let T := target_mileage self in
  rate <- py_div (a_parameter self) (b_parameter self) ;;
  let linear_value := S + rate * week in
  Return (py_min linear_value T).

Definition _get_plateau_week (self : params64) : res float :=
  let S := starting_mileage self in
  let T := target_mileage self in
  if S =? T then Return 0
  else
    rate <- py_div (a_parameter self) (b_parameter self) ;;
    py_div (T - S) rate.

Definition calculate_week (self : params64) (mileage : float) : res (option float) :=
  let S := starting_mileage self in
  let T := target_mileage self in
  if negb ((S <=? mileage) && (mileage <=? T)) then Return None
  else if mileage =? S then Return (Some 0)
  else
    rate <- py_div (a_parameter self) (b_parameter self) ;;
    week <- py_div (mileage - S) rate ;;
    plateau_week <- _get_plateau_week self ;;
    if week <=? plateau_week then Return (Some week)
    else Return (if mileage =? T then Some plateau_week else None).

Definition calculate_rate_of_change (self : params64) (week : float) : res float :=
  week_must_be_non_negative week ;;;
  plateau_week <- _get_plateau_week self ;;
  rate <- py_div (a_parameter self) (b_parameter self) ;;
  Return (if week <? plateau_week then rate else 0).

End LinearModel.

(** ** [ModelFactory] *)

Module ModelFactory.

(** The registry [_models], in insertion order. *)
Definition _models : list (string * (params64 -> res (BaseTrainingModel float))) :=
  [ ("exponential"%string, ExponentialModel.new);
    ("linear"%string, LinearModel.new) ].

Definition unknown_model_type (model_type available : string) : list (fragment float) :=
  [Str "Unknown model type: "; Str model_type; Str ". Available: "; Str available].

Definition create (model_type : string) (target_mileage starting_mileage
    a_parameter b_parameter : float) : res (BaseTrainingModel float) :=
  let model_type_lower := lower model_type in
  if negb (dict_contains model_type_lower _models) then
    let available := join ", " (dict_keys _models) in
    Raise (ValueError (unknown_model_type model_type available))
  else
    params <- new_ModelParameters target_mileage starting_mileage
                a_parameter b_parameter ;;
    match dict_get model_type_lower _models with
    | Some model_class => model_class params
    | None => Raise (KeyError model_type_lower)
    end.


End ModelFactory.

(** ** [ParameterValidator] *)

Module ParameterValidator.

Definition validate_mileage_range (starting target : float) (model_type : string)
    : res unit :=
  raise_if (target <=? 0)
    [Str "Target mileage must be positive, got "; Num target] ;;;
  raise_if (starting <? 0)
    [Str "Starting mileage must be non-negative, got "; Num starting] ;;;
  raise_if (String.eqb model_type "exponential" && geb starting target)
    [Str "For exponential model, starting ("; Num starting;
     Str ") must be less than target ("; Num target; Str ")"] ;;;
  raise_if (String.eqb model_type "linear" && gtb starting target)
    [Str "For linear model, starting ("; Num starting;
     Str ") cannot exceed target ("; Num target; Str ")"] ;;;
  Return tt.

Definition validate_model_parameters (a_param b_param : float) (model_type : string)
    : res unit :=
  raise_if (b_param <=? 0)
    [Str "Parameter b must be positive, got "; Num b_param] ;;;
  (if String.eqb model_type "exponential" then
     raise_if (negb ((0 <? a_param) && (a_param <? 1)))
       [Str "For exponential model, parameter a must be in (0, 1), got "; Num a_param]
   else if String.eqb model_type "linear" then
     raise_if (a_param <=? 0)
       [Str "For linear model, parameter a must be positive, got "; Num a_param]
   else Return tt) ;;;
  Return tt.

Definition validate_week_number (week : float) : res unit :=
  raise_if (week <? 0) [Str "Week number must be non-negative, got "; Num week].

End ParameterValidator.

(** ** Parameter sets used in the examples *)

(** [SAMPLE_EXPONENTIAL_PARAMS] and [SAMPLE_LINEAR_PARAMS] of the tests. *)
Definition exponential_sample : params64 := Build_ModelParameters 50 10 0.8 4.
Definition linear_sample : params64 := Build_ModelParameters 50 10 2 1.

Definition linear_third : params64 := Build_ModelParameters 50 10 1 3.
Definition linear_flat : params64 := Build_ModelParameters 50 10 1e-300 1e300.



(** [ExponentialModel(ModelParameters(T, S, a, b))] and
    [LinearModel(ModelParameters(T, S, a, b))] *)
Definition construct_exponential (T S a b : float) : res (BaseTrainingModel float) :=
  params <- new_ModelParameters T S a b ;; ExponentialModel.new params.

Definition construct_linear (T S a b : float) : res (BaseTrainingModel float) :=
  params <- new_ModelParameters T S a b ;; LinearModel.new params.

(** The comparison of two floats through their specification:
    [None] when one of them is NaN. *)
Definition fcompare (x y : float) : option comparison :=
  SFcompare (Prim2SF x) (Prim2SF y).

(** A slope [1e300 / 1e-300], which is [inf] in binary64. *)
Definition linear_steep : params64 := Build_ModelParameters 50 10 1e300 1e-300.

(** A float that is neither an infinity nor NaN. *)
Definition is_finite (x : float) : bool :=
  (neg_infinity <? x) && (x <? infinity).

(** [d[key] = value] for a dict kept in insertion order: an existing key
    keeps its place. *)
Fixpoint dict_set {V} (key : string) (value : V) (d : list (string * V))
    : list (string * V) :=
  match d with
  | [] => [(key, value)]
  | (k, v) :: d' =>
      if String.eqb key k then (k, value) :: d'
      else (k, v) :: dict_set key value d'
  end.

(** ** [DataValidator] *)

Module DataValidator.

(** The values a request parameter can hold: [None], a [bool], an [int],
    a [float], a [str], or an object of another type, known by the name of
    its type. *)
Inductive py_value :=
| PyNone
| PyBool (b : bool)
| PyInt (n : Z)
| PyFloat (x : float)
| PyStr (s : string)
| PyObject (type_name : string).

Definition is_None (value : py_value) : bool :=
  match value with PyNone => true | _ => false end.

(** [isinstance(value, (int, float))]; [bool] is a subclass of [int]. *)
Definition is_int_or_float (value : py_value) : bool :=
  match value with
  | PyBool _ | PyInt _ | PyFloat _ => true
  | _ => false
  end.

(** [type(value).__name__] *)
Definition type_name_of (value : py_value) : string :=
  match value with
  | PyNone => "NoneType"
  | PyBool _ => "bool"
  | PyInt _ => "int"
  | PyFloat _ => "float"
  | PyStr _ => "str"
  | PyObject type_name => type_name
  end.

Definition numeric_keys : list string :=
  ["target_mileage"; "starting_mileage"; "a_parameter"; "b_parameter"]%string.

(** [key in l] for a list of strings. *)
Definition list_contains (key : string) (l : list string) : bool :=
  existsb (String.eqb key) l.

Definition must_be_numeric (key : string) (value : py_value) : list (fragment float) :=
  [Str key; Str " must be numeric, got "; Str (type_name_of value)].

(** The body of the loop, for one item of [params.items()]. *)
Definition clean_item (cleaned : list (string * py_value))
    (item : string * py_value) : res (list (string * py_value)) :=
  let (key, value) := item in
  if negb (is_None value) then
    (if list_contains key numeric_keys
     then raise_if (negb (is_int_or_float value)) (must_be_numeric key value)
     else Return tt) ;;;
    Return (dict_set key value cleaned)
  else Return cleaned.

Fixpoint clean_items (items : list (string * py_value))
    (cleaned : list (string * py_value)) : res (list (string * py_value)) :=
  match items with
  | [] => Return cleaned
  | item :: items' =>
      cleaned' <- clean_item cleaned item ;;
      clean_items items' cleaned'
  end.

Definition validate_request_parameters (params : list (string * py_value))
    : res (list (string * py_value)) :=
  clean_items params [].

(** An item the loop refuses: a numeric key with a value that is neither
    [None] nor a number. *)
Definition refused (item : string * py_value) : bool :=
  negb (is_None (snd item)) && list_contains (fst item) numeric_keys
  && negb (is_int_or_float (snd item)).

Abbreviation items := (list (string * py_value)).

(** An item the loop keeps when it refuses nothing. *)
Definition not_None (item : string * py_value) : bool := negb (is_None (snd item)).

End DataValidator.

(** ** [Settings] (the fields the engine reads) *)

Module Settings.

Record Settings := {
  target_mileage : float;
  starting_mileage : float;
  a_parameter : float;
  b_parameter : float;
  equation_choice : string
}.

Definition valid_choices : list string := ["exponential"; "linear"]%string.

(** [repr] of a list of plain strings, as an f-string prints it. *)
Definition list_repr (l : list string) : string :=
  ("[" ++ join ", " (map (fun s => "'" ++ s ++ "'") l) ++ "]")%string.

(** [Settings.validate_equation_choice] *)
Definition validate_equation_choice (v : string) : res string :=
  if negb (DataValidator.list_contains (lower v) valid_choices) then
    Raise (ValueError [Str "Invalid equation choice. Must be one of: ";
                       Str (list_repr valid_choices)])
  else Return (lower v).

End Settings.

(** ** [api/routes.py]: resolving the model of a request *)

Module Routes.

(** [request.dict()]: the optional overrides of a request, by field name. *)
Definition request_dict := list (string * option float).

(** [request.get(key)]: [None] for a missing key. *)
Definition get (request : request_dict) (key : string) : option float :=
  match dict_get key request with
  | Some value => value
  | None => None
  end.

(** [x or default] for an optional float: [None] and zero are false. *)
Definition py_or (x : option float) (default : float) : float :=
  match x with
  | Some v => if v =? 0 then default else v
  | None => default
  end.

(** The dict [get_model_params] returns, by key. *)
Record model_params := {
  model_type : string;
  target_mileage : float;
  starting_mileage : float;
  a_parameter : float;
  b_parameter : float
}.

Definition get_model_params (request : request_dict) (settings : Settings.Settings)
    : model_params :=
  {| model_type := Settings.equation_choice settings;
     target_mileage :=
       py_or (get request "target_mileage") (Settings.target_mileage settings);
     starting_mileage :=
       py_or (get request "starting_mileage") (Settings.starting_mileage settings);
     a_parameter :=
       py_or (get request "a_parameter") (Settings.a_parameter settings);
     b_parameter :=
       py_or (get request "b_parameter") (Settings.b_parameter settings) |}.

(** The first two lines of every handler:
    [params = get_model_params(request.dict(), settings)], then
    [ModelFactory.create] applied to the entries of [params]. *)
Definition create_model (request : request_dict) (settings : Settings.Settings)
    : res (BaseTrainingModel float) :=
  let params := get_model_params request settings in
  ModelFactory.create (model_type params) (target_mileage params)
    (starting_mileage params) (a_parameter params) (b_parameter params).

(** The defaults of [Settings]. *)
Definition default_settings : Settings.Settings :=
  {| Settings.target_mileage := 50;
     Settings.starting_mileage := 10;
     Settings.a_parameter := 0.8;
     Settings.b_parameter := 4;
     Settings.equation_choice := "exponential" |}.

End Routes.

End B64.

(** * The exact reading *)

Module Exact.

#[local] Open Scope R_scope.
#[local] Open Scope py_scope.

Abbreviation paramsR := (ModelParameters R).
Abbreviation res := (result R).

(** The comparison operators, decided on the reals. *)
Definition ltb (x y : R) : bool := if Rlt_dec x y then true else false.
Definition leb (x y : R) : bool := if Rle_dec x y then true else false.
Definition eqb (x y : R) : bool := if Req_dec_T x y then true else false.
Definition gtb (x y : R) : bool := ltb y x.
Definition geb (x y : R) : bool := leb y x.

(** [x / y], with [ZeroDivisionError] on a zero divisor. *)
Definition py_div (x y : R) : res R :=
  if eqb y 0 then Raise ZeroDivisionError else Return (x / y).

Definition py_min (x y : R) : R := if ltb y x then y else x.
Definition py_max (x y : R) : R := if gtb y x then y else x.

(** A float that is a week: a real number, or [float('inf')]. *)
Inductive week_value :=
| Finite (week : R)
| Infinite.

Definition __post_init__ (self : paramsR) : res unit :=
  raise_if (leb (target_mileage self) 0) [Str "Target mileage must be positive"] ;;;
  raise_if (ltb (starting_mileage self) 0) [Str "Starting mileage must be non-negative"] ;;;
  Return tt.

Definition new_ModelParameters (target starting a b : R) : res paramsR :=
  let self := Build_ModelParameters target starting a b in
  __post_init__ self ;;;
  Return self.

Definition __init__ (cls : model_class) (_validate_parameters : paramsR -> res unit)
    (params : paramsR) : res (BaseTrainingModel R) :=
  _validate_parameters params ;;;
  Return (Build_BaseTrainingModel cls params).

Definition week_must_be_non_negative (week : R) : res unit :=
  raise_if (ltb week 0) [Str "Week must be non-negative, got "; Num week].

Module ExponentialModel.

(** The parameters of a valid exponential model, as the spec lists them. *)
Definition valid (self : paramsR) : Prop :=
  0 < target_mileage self /\
  0 <= starting_mileage self < target_mileage self /\
  0 < a_parameter self < 1 /\
  0 < b_parameter self.

Definition _validate_parameters (self : paramsR) : res unit :=
  raise_if (negb (ltb 0 (a_parameter self) && ltb (a_parameter self) 1))
    [Str "Parameter 'a' must be in (0, 1), got "; Num (a_parameter self)] ;;;
  raise_if (leb (b_parameter self) 0)
    [Str "Parameter 'b' must be positive, got "; Num (b_parameter self)] ;;;
  raise_if (geb (starting_mileage self) (target_mileage self))
    [Str "Starting mileage must be less than target mileage for exponential model"] ;;;
  Return tt.

Definition new (params : paramsR) : res (BaseTrainingModel R) :=
  __init__ ExponentialClass _validate_parameters params.

(** [v ** w] for a positive base, and [math.log]. *)
Definition float_pow (v w : R) : R := Rpower v w.

Definition math_log (x : R) : res R :=
  if leb x 0 then Raise (ValueError [Str "math domain error"])
  else Return (ln x).

Definition calculate_mileage (self : paramsR) (week : R) : res R :=
  week_must_be_non_negative week ;;;
  let T := target_mileage self in
  let S := starting_mileage self in
  let a := a_parameter self in
  let b := b_parameter self in
  exponent <- py_div week b ;;
  let decay_factor := float_pow a exponent in
  Return (T - (T - S) * decay_factor).

Definition calculate_week (self : paramsR) (mileage : R) : res (option week_value) :=
  let S := starting_mileage self in
  let T := target_mileage self in
  if negb (leb S mileage && leb mileage T) then Return None
  else if eqb mileage T then Return (Some Infinite)
  else
    let a := a_parameter self in
    let b := b_parameter self in
    ratio <- py_div (T - mileage) (T - S) ;;
    if leb ratio 0 then Return None
    else
      log_ratio <- math_log ratio ;;
      log_a <- math_log a ;;
      week <- py_div (b * log_ratio) log_a ;;
      Return (Some (Finite (py_max 0 week))).

Definition calculate_rate_of_change (self : paramsR) (week : R) : res R :=
  week_must_be_non_negative week ;;;
  let T := target_mileage self in
  let S := starting_mileage self in
  let a := a_parameter self in
  let b := b_parameter self in
  coefficient <- py_div (- (T - S)) b ;;
  exponent <- py_div week b ;;
  let exponential := float_pow a exponent in
  log_a <- math_log a ;;
  Return (coefficient * exponential * log_a).

End ExponentialModel.

Module LinearModel.

(** The parameters of a valid linear model. *)
Definition valid (self : paramsR) : Prop :=
  0 < target_mileage self /\
  0 <= starting_mileage self <= target_mileage self /\
  0 < a_parameter self /\
  0 < b_parameter self.

Definition _validate_parameters (self : paramsR) : res unit :=
  raise_if (leb (a_parameter self) 0)
    [Str "Parameter 'a' must be positive for linear model, got "; Num (a_parameter self)] ;;;
  raise_if (leb (b_parameter self) 0)
    [Str "Parameter 'b' must be positive, got "; Num (b_parameter self)] ;;;
  raise_if (gtb (starting_mileage self) (target_mileage self))
    [Str "Starting mileage cannot exceed target mileage"] ;;;
  Return tt.

Definition new (params : paramsR) : res (BaseTrainingModel R) :=
  __init__ LinearClass _validate_parameters params.

Definition calculate_mileage (self : paramsR) (week : R) : res R :=
  week_must_be_non_negative week ;;;
  let S := starting_mileage self in
  let T := target_mileage self in
  rate <- py_div (a_parameter self) (b_parameter self) ;;
  let linear_value := S + rate * week in
  Return (py_min linear_value T).

Definition _get_plateau_week (self : paramsR) : res R :=
  let S := starting_mileage self in
  let T := target_mileage self in
  if eqb S T then Return 0
  else
    rate <- py_div (a_parameter self) (b_parameter self) ;;
    py_div (T - S) rate.

Definition calculate_week (self : paramsR) (mileage : R) : res (option week_value) :=
  let S := starting_mileage self in
  let T := target_mileage self in
  if negb (leb S mileage && leb mileage T) then Return None
  else if eqb mileage S then Return (Some (Finite 0))
  else
    rate <- py_div (a_parameter self) (b_parameter self) ;;
    week <- py_div (mileage - S) rate ;;
    plateau_week <- _get_plateau_week self ;;
    if leb week plateau_week then Return (Some (Finite week))
    else Return (if eqb mileage T then Some (Finite plateau_week) else None).

Definition calculate_rate_of_change (self : paramsR) (week : R) : res R :=
  week_must_be_non_negative week ;;;
  plateau_week <- _get_plateau_week self ;;
  rate <- py_div (a_parameter self) (b_parameter self) ;;
  Return (if ltb week plateau_week then rate else 0).

End LinearModel.


(** The sample parameter sets of the tests, over the reals. *)
Definition exponential_sample : paramsR := Build_ModelParameters 50 10 (4 / 5) 4.
Definition linear_sample : paramsR := Build_ModelParameters 50 10 2 1.

End Exact.

(** * Binary64: the order of floats *)

Section FloatOrder.

#[local] Open Scope float_scope.
Import B64.

Lemma ltb_fcompare x y : (x <? y) = true <-> fcompare x y = Some Lt.
Proof.
  rewrite ltb_spec. unfold SFltb, fcompare.
  destruct (SFcompare _ _) as [[]|]; split; congruence.
Qed.

Lemma leb_fcompare x y :
  (x <=? y) = true <-> fcompare x y = Some Lt \/ fcompare x y = Some Eq.
Proof.
  rewrite leb_spec. unfold SFleb, fcompare.
  destruct (SFcompare _ _) as [[]|]; split; intuition congruence.
Qed.

Lemma eqb_fcompare x y : (x =? y) = true <-> fcompare x y = Some Eq.
Proof.
  rewrite FloatAxioms.eqb_spec. unfold SFeqb, fcompare.
  destruct (SFcompare _ _) as [[]|]; split; congruence.
Qed.

Lemma SFcompare_antisym x y c :
  SFcompare x y = Some c -> SFcompare y x = Some (CompOpp c).
Proof.
  destruct x as [sx|sx| |sx mx ex], y as [sy|sy| |sy my ey]; simpl;
    try discriminate; intros H; injection H as <-;
    try (destruct sx; reflexivity); try (destruct sy; reflexivity);
    try (destruct sx, sy; reflexivity).
  change (PosDef.Pos.compare_cont Eq my mx) with (Pos.compare my mx).
  change (PosDef.Pos.compare_cont Eq mx my) with (Pos.compare mx my).
  rewrite (Z.compare_antisym ex ey), (Pos.compare_antisym mx my).
  destruct sx, sy, (ex ?= ey)%Z, (mx ?= my)%positive; reflexivity.
Qed.

(** Floats that compare equal compare alike with every third float. *)
Lemma SFcompare_Eq_l x y z :
  SFcompare x y = Some Eq -> SFcompare x z = SFcompare y z.
Proof.
  destruct x as [sx|sx| |sx mx ex], y as [sy|sy| |sy my ey]; simpl;
    try discriminate; try reflexivity.
  - destruct sy; discriminate.
  - destruct sy; discriminate.
  - destruct sx; discriminate.
  - destruct sx, sy; try discriminate; reflexivity.
  - destruct sx; discriminate.
  - destruct sx; discriminate.
  - destruct sy; discriminate.
  - intros H.
    assert (sx = sy /\ ex = ey /\ mx = my) as (-> & -> & ->).
    { destruct sx, sy; try discriminate;
        destruct (Z.compare_spec ex ey); try discriminate;
        change (PosDef.Pos.compare_cont Eq mx my) with (Pos.compare mx my) in H;
        destruct (Pos.compare_spec mx my); try discriminate; auto. }
    reflexivity.
Qed.

Lemma fcompare_antisym x y c :
  fcompare x y = Some c -> fcompare y x = Some (CompOpp c).
Proof. apply SFcompare_antisym. Qed.

Lemma fcompare_Eq_l x y z :
  fcompare x y = Some Eq -> fcompare x z = fcompare y z.
Proof. apply SFcompare_Eq_l. Qed.

Lemma fcompare_Eq_r x y z :
  fcompare x y = Some Eq -> fcompare z x = fcompare z y.
Proof.
  intros H.
  pose proof (fcompare_Eq_l x y z H) as Hl.
  destruct (fcompare z x) as [c|] eqn:Hzx, (fcompare z y) as [d|] eqn:Hzy;
    try reflexivity.
  - apply fcompare_antisym in Hzx, Hzy. rewrite Hl in Hzx.
    rewrite Hzx in Hzy. injection Hzy as Hcd.
    f_equal. now destruct c, d.
  - apply fcompare_antisym in Hzx.
    destruct (fcompare y z) as [e|] eqn:Hyz; [|congruence].
    apply fcompare_antisym in Hyz. congruence.
  - apply fcompare_antisym in Hzy.
    destruct (fcompare x z) as [e|] eqn:Hxz; [|congruence].
    apply fcompare_antisym in Hxz. congruence.
Qed.

Lemma ltb_leb_false x y : (x <? y) = true -> (y <=? x) = false.
Proof.
  intros H%ltb_fcompare%fcompare_antisym.
  destruct (y <=? x) eqn:E; [|reflexivity].
  apply leb_fcompare in E. simpl in H. destruct E; congruence.
Qed.

Lemma leb_ltb_false x y : (x <=? y) = true -> (y <? x) = false.
Proof.
  intros H. destruct (y <? x) eqn:E; [|reflexivity].
  apply ltb_leb_false in E. congruence.
Qed.

Lemma ltb_leb x y : (x <? y) = true -> (x <=? y) = true.
Proof. intros H%ltb_fcompare. apply leb_fcompare. now left. Qed.

Lemma ltb_asym x y : (x <? y) = true -> (y <? x) = false.
Proof. intros H. apply leb_ltb_false, ltb_leb, H. Qed.

Lemma eqb_sym x y : (x =? y) = true -> (y =? x) = true.
Proof.
  intros H%eqb_fcompare%fcompare_antisym. now apply eqb_fcompare.
Qed.

Lemma eqb_leb x y : (x =? y) = true -> (x <=? y) = true.
Proof. intros H%eqb_fcompare. apply leb_fcompare. now right. Qed.

Lemma eqb_ltb_false x y : (x =? y) = true -> (x <? y) = false.
Proof. intros H. apply leb_ltb_false, eqb_leb, eqb_sym, H. Qed.

Lemma ltb_eqb_false x y : (x <? y) = true -> (x =? y) = false.
Proof.
  intros H. destruct (x =? y) eqn:E; [|reflexivity].
  apply eqb_ltb_false in E. congruence.
Qed.

Lemma ltb_irrefl x : (x <? x) = false.
Proof.
  destruct (x <? x) eqn:E; [|reflexivity].
  pose proof (ltb_asym _ _ E). congruence.
Qed.

Lemma eqb_ltb_l x y z : (x =? y) = true -> (x <? z) = (y <? z).
Proof.
  intros H%eqb_fcompare. rewrite !ltb_spec. unfold SFltb.
  fold (fcompare x z) (fcompare y z). now rewrite (fcompare_Eq_l x y z H).
Qed.


Lemma eqb_ltb_r x y z : (x =? y) = true -> (z <? x) = (z <? y).
Proof.
  intros H%eqb_fcompare. rewrite !ltb_spec. unfold SFltb.
  fold (fcompare z x) (fcompare z y). now rewrite (fcompare_Eq_r x y z H).
Qed.

Lemma eqb_leb_r x y z : (x =? y) = true -> (z <=? x) = (z <=? y).
Proof.
  intros H%eqb_fcompare. rewrite !leb_spec. unfold SFleb.
  fold (fcompare z x) (fcompare z y). now rewrite (fcompare_Eq_r x y z H).
Qed.

End FloatOrder.

(** * Binary64: the linear model *)

Section LinearBinary64.

#[local] Open Scope float_scope.
Import B64.

Lemma py_div_nonzero x y : (y =? 0) = false -> py_div x y = Return (x / y).
Proof. unfold py_div. now intros ->. Qed.


Lemma positive_nonzero y : (0 <? y) = true -> (y =? 0) = false.
Proof.
  intros H. destruct (y =? 0) eqn:E; [|reflexivity].
  apply eqb_sym, eqb_ltb_false in E. congruence.
Qed.

Lemma linear_valid_fields p :
  LinearModel.valid p = true ->
  (0 <? target_mileage p) = true /\ (0 <=? starting_mileage p) = true /\
  (starting_mileage p <=? target_mileage p) = true /\
  (0 <? a_parameter p) = true /\ (0 <? b_parameter p) = true.
Proof.
  unfold LinearModel.valid. rewrite !andb_true_iff. tauto.
Qed.

(** A valid parameter set passes both constructors. *)
Lemma linear_valid_constructs p :
  LinearModel.valid p = true ->
  __post_init__ p = Return tt /\
  LinearModel.new p = Return (Build_BaseTrainingModel LinearClass p).
Proof.
  intros (HT & HS & HST & Ha & Hb)%linear_valid_fields.
  unfold __post_init__, LinearModel.new, __init__,
    LinearModel._validate_parameters, gtb.
  rewrite (ltb_leb_false _ _ HT), (leb_ltb_false _ _ HS),
    (ltb_leb_false _ _ Ha), (ltb_leb_false _ _ Hb), (leb_ltb_false _ _ HST).
  split; reflexivity.
Qed.




End LinearBinary64.

(** * Binary64: construction, the factory and the validators *)

Section ConstructionBinary64.

#[local] Open Scope float_scope.
#[local] Open Scope py_scope.
Import B64.

(** C7. With [starting == target], constructing an exponential model
    raises [ValueError] (the strict check [starting < target] when the other
    parameters are valid), while constructing a linear model with [a > 0],
    [b > 0], [target > 0] succeeds and its plateau week is [0.0]. *)
Theorem equal_start_and_target (T S a b : float) :
  (S =? T) = true ->
  let p := Build_ModelParameters T S a b in
  (exists msg, construct_exponential T S a b = Raise (ValueError msg)) /\
  ((0 <? T) = true -> (0 <? a) = true -> (a <? 1) = true -> (0 <? b) = true ->
     construct_exponential T S a b =
       Raise (ValueError
         [Str "Starting mileage must be less than target mileage for exponential model"])) /\
  ((0 <? T) = true -> (0 <? a) = true -> (0 <? b) = true ->
     construct_linear T S a b = Return (Build_BaseTrainingModel LinearClass p) /\
     LinearModel._get_plateau_week p = Return 0).
Proof.
  intros HST p.
  assert (Hge : (T <=? S) = true) by apply eqb_leb, eqb_sym, HST.
  assert (Hgt : (T <? S) = false) by apply eqb_ltb_false, eqb_sym, HST.
  split; [|split].
  - unfold construct_exponential, new_ModelParameters, __post_init__,
      ExponentialModel.new, __init__, ExponentialModel._validate_parameters,
      geb, raise_if; simpl.
    destruct (T <=? 0); simpl; [eauto|].
    destruct (S <? 0); simpl; [eauto|].
    destruct (negb _); simpl; [eauto|].
    destruct (b <=? 0); simpl; [eauto|].
    rewrite Hge; simpl; eauto.
  - intros HT Ha Ha1 Hb.
    unfold construct_exponential, new_ModelParameters, __post_init__,
      ExponentialModel.new, __init__, ExponentialModel._validate_parameters,
      geb, raise_if; simpl.
    rewrite (ltb_leb_false _ _ HT), (eqb_ltb_l _ _ 0 HST), (ltb_asym _ _ HT).
    simpl.
    rewrite Hge, Ha, Ha1, (ltb_leb_false _ _ Hb). reflexivity.
  - intros HT Ha Hb. split.
    + unfold construct_linear, new_ModelParameters, __post_init__,
        LinearModel.new, __init__, LinearModel._validate_parameters,
        gtb, raise_if; simpl.
      rewrite (ltb_leb_false _ _ HT), (eqb_ltb_l _ _ 0 HST), (ltb_asym _ _ HT).
      simpl.
      rewrite Hgt, (ltb_leb_false _ _ Ha), (ltb_leb_false _ _ Hb). reflexivity.
    + unfold LinearModel._get_plateau_week; simpl. now rewrite HST.
Qed.

(** C10. For the kinds [exponential] and [linear], the two validators
    both pass exactly when [ModelFactory.create] returns a model. *)
Theorem validators_agree_with_factory (kind : string) (T S a b : float) :
  kind = "exponential"%string \/ kind = "linear"%string ->
  (succeeds (ParameterValidator.validate_mileage_range S T kind) /\
   succeeds (ParameterValidator.validate_model_parameters a b kind))
  <-> succeeds (ModelFactory.create kind T S a b).
Proof.
  assert (Hsolve : forall (A : Type) (x y : res unit) (z : res A),
            succeedsb x && succeedsb y = succeedsb z ->
            (succeeds x /\ succeeds y) <-> succeeds z).
  { unfold succeeds. intros A [[]|e1] [[]|e2] [m|e3]; simpl; try discriminate;
      intros _; (split; [intros [[? H1] [? H2]] | intros [? H1]]);
      try discriminate; eauto. }
  intros [-> | ->]; apply Hsolve; cbv.
  - destruct (T <=? 0), (S <? 0), (b <=? 0), (0 <? a), (a <? 1), (T <=? S);
      reflexivity.
  - destruct (T <=? 0), (S <? 0), (b <=? 0), (a <=? 0), (T <? S); reflexivity.
Qed.



(** The registry is closed: its keys are [exponential] and [linear]. *)
Lemma registry_keys key :
  dict_contains key ModelFactory._models = true <->
  key = "exponential"%string \/ key = "linear"%string.
Proof.
  unfold dict_contains, ModelFactory._models; simpl.
  destruct (String.eqb_spec key "exponential") as [->|Hne]; [tauto|].
  destruct (String.eqb_spec key "linear") as [->|Hnl]; [tauto|].
  split; [discriminate|tauto].
Qed.


End ConstructionBinary64.

(** * Binary64: worked examples *)

Section ExamplesBinary64.

#[local] Open Scope float_scope.
#[local] Open Scope py_scope.
Import B64.

(** The concrete cases of the spec and the tests. *)
Example linear_sample_mileages :
  LinearModel.calculate_mileage linear_sample 0 = Return 10 /\
  LinearModel.calculate_mileage linear_sample 1 = Return 12 /\
  LinearModel.calculate_mileage linear_sample 2 = Return 14 /\
  LinearModel._get_plateau_week linear_sample = Return 20 /\
  LinearModel.calculate_mileage linear_sample 30 = Return 50 /\
  LinearModel.calculate_mileage linear_sample 40 = Return 50 /\
  LinearModel.calculate_rate_of_change linear_sample 5 = Return 2 /\
  LinearModel.calculate_rate_of_change linear_sample 25 = Return 0 /\
  LinearModel.calculate_rate_of_change linear_sample 20 = Return 0.
Proof. repeat split; reflexivity. Qed.

Example negative_week_is_refused libm_pow :
  LinearModel.calculate_mileage linear_sample (-1) =
    Raise (ValueError [Str "Week must be non-negative, got "; Num (-1)]) /\
  ExponentialModel.calculate_mileage libm_pow exponential_sample (-1) =
    Raise (ValueError [Str "Week must be non-negative, got "; Num (-1)]).
Proof. split; reflexivity. Qed.

Example create_bogus :
  ModelFactory.create "bogus" 50 10 1 1 =
    Raise (ValueError [Str "Unknown model type: "; Str "bogus";
                       Str ". Available: "; Str "exponential, linear"]).
Proof. reflexivity. Qed.

Example create_upper_case :
  ModelFactory.create "EXPONENTIAL" 50 10 0.8 4 =
    Return (Build_BaseTrainingModel ExponentialClass exponential_sample) /\
  ModelFactory.create "EXPONENTIAL" 50 10 0.8 4 =
    ModelFactory.create "exponential" 50 10 0.8 4 /\
  ModelFactory.create "Linear" 50 10 2 1 =
    Return (Build_BaseTrainingModel LinearClass linear_sample).
Proof. repeat split; reflexivity. Qed.

(** When [a / b] underflows to [0.0] the parameters pass validation but
    the plateau week is a division by zero: the linear model has no
    plateau week and its rate and inverse raise [ZeroDivisionError]. *)
Example linear_flat_has_no_plateau_week :
  LinearModel.valid linear_flat = true /\
  LinearModel.new linear_flat = Return (Build_BaseTrainingModel LinearClass linear_flat) /\
  LinearModel._get_plateau_week linear_flat = Raise ZeroDivisionError /\
  LinearModel.calculate_rate_of_change linear_flat 5 = Raise ZeroDivisionError /\
  LinearModel.calculate_week linear_flat 20 = Raise ZeroDivisionError.
Proof. repeat split; reflexivity. Qed.

(** The plateau week exists as soon as the slope is not zero, or the
    model starts at its target. *)
Lemma plateau_week_defined p :
  LinearModel.valid p = true ->
  (starting_mileage p =? target_mileage p) = true \/
  (a_parameter p / b_parameter p =? 0) = false ->
  exists pw, LinearModel._get_plateau_week p = Return pw.
Proof.
  intros (_ & _ & _ & _ & Hb)%linear_valid_fields H.
  unfold LinearModel._get_plateau_week.
  destruct (starting_mileage p =? target_mileage p); [eauto|].
  destruct H as [H|H]; [discriminate|].
  rewrite (py_div_nonzero _ _ (positive_nonzero _ Hb)). simpl.
  rewrite (py_div_nonzero _ _ H). eauto.
Qed.



Lemma equal_start_and_target_witness :
  (50 =? 50) = true /\
  (exists msg, construct_exponential 50 50 0.8 4 = Raise (ValueError msg)) /\
  construct_linear 50 50 2 1 =
    Return (Build_BaseTrainingModel LinearClass (Build_ModelParameters 50 50 2 1)) /\
  LinearModel._get_plateau_week (Build_ModelParameters 50 50 2 1) = Return 0.
Proof.
  split; [reflexivity|]. split.
  - exact (proj1 (equal_start_and_target 50 50 0.8 4 eq_refl)).
  - exact (proj2 (proj2 (equal_start_and_target 50 50 2 1 eq_refl))
             eq_refl eq_refl eq_refl).
Defined.

Lemma validators_agree_with_factory_witness :
  succeeds (ParameterValidator.validate_mileage_range 10 50 "linear") /\
  succeeds (ParameterValidator.validate_model_parameters 2 1 "linear") <->
  succeeds (ModelFactory.create "linear" 50 10 2 1).
Proof.
  exact (validators_agree_with_factory "linear" 50 10 2 1 (or_intror eq_refl)).
Defined.

End ExamplesBinary64.

(** * Binary64: where rounding shows *)

Section RoundingBinary64.

#[local] Open Scope float_scope.
#[local] Open Scope py_scope.
Import B64.







(** The branches of the exponential inverse in binary64, for any C
    library: outside [S, T] it returns [None], at [T] it returns
    [float('inf')], and inside, when the quotient, the two logarithms and
    the last division return, it returns their value clamped at zero. *)
Lemma exponential_calculate_week_branches libm_log (p : params64) (m : float) :
  ExponentialModel.valid p = true ->
  let T := target_mileage p in
  let S := starting_mileage p in
  let a := a_parameter p in
  let b := b_parameter p in
  ((m <? S) = true \/ (T <? m) = true ->
     ExponentialModel.calculate_week libm_log p m = Return None) /\
  ((m =? T) = true ->
     ExponentialModel.calculate_week libm_log p m = Return (Some infinity)) /\
  ((S <=? m) = true -> (m <? T) = true ->
     forall ratio log_ratio log_a week,
       py_div (T - m) (T - S) = Return ratio ->
       ExponentialModel.math_log libm_log ratio = Return log_ratio ->
       ExponentialModel.math_log libm_log a = Return log_a ->
       py_div (b * log_ratio) log_a = Return week ->
       ExponentialModel.calculate_week libm_log p m
         = Return (Some (py_max 0 week))).
Proof.
  intros Hv T S a b.
  assert (HST : (S <? T) = true).
  { unfold ExponentialModel.valid in Hv. rewrite !andb_true_iff in Hv. tauto. }
  split; [|split].
  - intros [H|H]; unfold ExponentialModel.calculate_week; fold S T.
    + now rewrite (ltb_leb_false _ _ H).
    + now rewrite (ltb_leb_false _ _ H), andb_false_r.
  - intros H. unfold ExponentialModel.calculate_week; fold S T.
    rewrite (eqb_leb _ _ H), (eqb_leb_r _ _ S H), (ltb_leb _ _ HST), H.
    reflexivity.
  - intros HSm HmT ratio log_ratio log_a week Hratio Hlr Hla Hweek.
    unfold ExponentialModel.calculate_week; fold S T a b.
    rewrite HSm, (ltb_leb _ _ HmT), (ltb_eqb_false _ _ HmT). simpl.
    rewrite Hratio. simpl.
    assert (Hguard : (ratio <=? 0) = false).
    { unfold ExponentialModel.math_log in Hlr.
      destruct (ratio <=? 0); [discriminate|reflexivity]. }
    rewrite Hguard, Hlr. simpl. rewrite Hla. simpl. rewrite Hweek.
    reflexivity.
Qed.


End RoundingBinary64.

(** * The exact reading: the comparisons and the constructors *)

Section ExactBasics.

#[local] Open Scope R_scope.
#[local] Open Scope py_scope.
Import Exact.










(** Over the reals the constructors accept exactly the valid parameters. *)
Lemma exponential_valid_iff_constructed p :
  ExponentialModel.valid p <->
  __post_init__ p = Return tt /\
  ExponentialModel.new p = Return (Build_BaseTrainingModel ExponentialClass p).
Proof.
  unfold ExponentialModel.valid, __post_init__, ExponentialModel.new, __init__,
    ExponentialModel._validate_parameters, raise_if, geb, leb, ltb.
  destruct p as [T S a b]; simpl.
  destruct (Rle_dec T 0), (Rlt_dec S 0), (Rlt_dec 0 a), (Rlt_dec a 1),
    (Rle_dec b 0), (Rle_dec T S); simpl;
    (split; [intros; try lra; split; reflexivity
            | intros [H1 H2]; try discriminate; lra]).
Qed.

Lemma linear_valid_iff_constructed p :
  LinearModel.valid p <->
  __post_init__ p = Return tt /\
  LinearModel.new p = Return (Build_BaseTrainingModel LinearClass p).
Proof.
  unfold LinearModel.valid, __post_init__, LinearModel.new, __init__,
    LinearModel._validate_parameters, raise_if, gtb, leb, ltb.
  destruct p as [T S a b]; simpl.
  destruct (Rle_dec T 0), (Rlt_dec S 0), (Rle_dec a 0), (Rle_dec b 0),
    (Rlt_dec T S); simpl;
    (split; [intros; try lra; split; reflexivity
            | intros [H1 H2]; try discriminate; lra]).
Qed.

End ExactBasics.

(** * The exact reading: the exponential model *)

Section ExactExponential.

#[local] Open Scope R_scope.
#[local] Open Scope py_scope.
Import Exact.

Variable p : paramsR.
Hypothesis Hvalid : ExponentialModel.valid p.

Let T := target_mileage p.
Let S := starting_mileage p.
Let a := a_parameter p.
Let b := b_parameter p.












End ExactExponential.

Section ExactExponentialClaims.

#[local] Open Scope R_scope.
Import Exact.





End ExactExponentialClaims.

(** * The exact reading: the linear model *)

Section ExactLinear.

#[local] Open Scope R_scope.
Import Exact.





End ExactLinear.

(** * The exact reading: worked examples *)

Section ExamplesExact.

#[local] Open Scope R_scope.
Import Exact.








End ExamplesExact.

(** * Binary64: what the model methods guarantee *)

Section GuaranteesBinary64.

#[local] Open Scope float_scope.
#[local] Open Scope py_scope.
Import B64.

Lemma py_max_0_nonneg w : (0 <=? py_max 0 w) = true.
Proof.
  unfold py_max, gtb. destruct (0 <? w) eqn:E.
  - now apply ltb_leb.
  - reflexivity.
Qed.

(** X1. Whatever the parameters, the mileage and the C library's [log]
    are, a week that the exponential [calculate_week] returns compares
    [>= 0.0]: it is never negative and never NaN. *)
Theorem exponential_week_never_negative libm_log (p : params64) (m r : float) :
  ExponentialModel.calculate_week libm_log p m = Return (Some r) ->
  (0 <=? r) = true.
Proof.
  unfold ExponentialModel.calculate_week, ExponentialModel.math_log, py_div.
  destruct (negb _); [discriminate|].
  destruct (m =? target_mileage p); [now intros [= <-]|].
  destruct (_ - starting_mileage p =? 0); [discriminate|]. simpl.
  destruct (_ <=? 0); [discriminate|]. simpl.
  destruct (a_parameter p <=? 0); [discriminate|]. simpl.
  destruct (libm_log (a_parameter p) =? 0); [discriminate|]. simpl.
  intros [= <-]. apply py_max_0_nonneg.
Qed.

Lemma exponential_week_never_negative_witness :
  ExponentialModel.calculate_week (fun x => x) exponential_sample 50
    = Return (Some infinity) /\
  (0 <=? infinity) = true.
Proof.
  split; [reflexivity|].
  exact (exponential_week_never_negative (fun x => x) exponential_sample 50
           infinity eq_refl).
Defined.

Lemma exponential_valid_fields p :
  ExponentialModel.valid p = true ->
  (0 <? target_mileage p) = true /\ (0 <=? starting_mileage p) = true /\
  (starting_mileage p <? target_mileage p) = true /\
  (0 <? a_parameter p) = true /\ (a_parameter p <? 1) = true /\
  (0 <? b_parameter p) = true.
Proof.
  unfold ExponentialModel.valid. rewrite !andb_true_iff. tauto.
Qed.

(** X2. For a valid exponential model and a week that compares [>= 0],
    [calculate_mileage] and [calculate_rate_of_change] return a float: no
    division by zero and no domain error of [math.log] can occur, whatever
    the C library is. *)
Theorem exponential_forward_returns libm_pow libm_log (p : params64) (week : float) :
  ExponentialModel.valid p = true ->
  (0 <=? week) = true ->
  let T := target_mileage p in
  let S := starting_mileage p in
  let a := a_parameter p in
  let b := b_parameter p in
  let decay := ExponentialModel.float_pow libm_pow a (week / b) in
  ExponentialModel.calculate_mileage libm_pow p week
    = Return (T - (T - S) * decay) /\
  ExponentialModel.calculate_rate_of_change libm_pow libm_log p week
    = Return (- (T - S) / b * decay * libm_log a).
Proof.
  intros (_ & _ & _ & Ha & _ & Hb)%exponential_valid_fields Hw T S a b decay.
  unfold ExponentialModel.calculate_mileage,
    ExponentialModel.calculate_rate_of_change, ExponentialModel.math_log,
    week_must_be_non_negative, raise_if.
  rewrite (leb_ltb_false _ _ Hw). simpl.
  rewrite !(py_div_nonzero _ _ (positive_nonzero _ Hb)). simpl.
  rewrite (ltb_leb_false _ _ Ha). split; reflexivity.
Qed.

Lemma exponential_forward_returns_witness :
  ExponentialModel.valid exponential_sample = true /\ (0 <=? 0) = true /\
  ExponentialModel.calculate_mileage (fun _ x => x) exponential_sample 0
    = Return 10.
Proof.
  split; [reflexivity|]. split; [reflexivity|].
  exact (proj1 (exponential_forward_returns (fun _ x => x) (fun x => x)
                  exponential_sample 0 eq_refl eq_refl)).
Defined.

(** X3. For a valid linear model and a week that compares [>= 0],
    [calculate_mileage] returns a float, which is the ramp value
    [S + (a / b) * week] or the target, and never compares above the
    target. *)
Theorem linear_mileage_at_most_target (p : params64) (week : float) :
  LinearModel.valid p = true ->
  (0 <=? week) = true ->
  let T := target_mileage p in
  let ramp := starting_mileage p + a_parameter p / b_parameter p * week in
  exists m,
    LinearModel.calculate_mileage p week = Return m /\
    (m = ramp \/ m = T) /\
    (T <? m) = false /\
    ((T <? ramp) = true -> m = T).
Proof.
  intros (_ & _ & _ & _ & Hb)%linear_valid_fields Hw T ramp.
  unfold LinearModel.calculate_mileage, week_must_be_non_negative, raise_if.
  rewrite (leb_ltb_false _ _ Hw). simpl.
  rewrite (py_div_nonzero _ _ (positive_nonzero _ Hb)). simpl.
  fold T ramp. unfold py_min.
  destruct (T <? ramp) eqn:E; eexists; (split; [reflexivity|]).
  - repeat split; auto. apply ltb_irrefl.
  - repeat split; auto. discriminate.
Qed.

Lemma linear_mileage_at_most_target_witness :
  LinearModel.valid linear_sample = true /\ (0 <=? 30) = true /\
  exists m,
    LinearModel.calculate_mileage linear_sample 30 = Return m /\
    (m = 10 + 2 / 1 * 30 \/ m = 50) /\
    (50 <? m) = false /\
    ((50 <? 10 + 2 / 1 * 30) = true -> m = 50).
Proof.
  split; [reflexivity|]. split; [reflexivity|].
  exact (linear_mileage_at_most_target linear_sample 30 eq_refl eq_refl).
Defined.

(** X4. The four methods that take a week raise the [ValueError] that
    quotes the week exactly when the week compares below zero, for any
    parameters and before any division is attempted; a NaN week is not
    refused.  [validate_week_number] passes exactly the weeks they let
    through. *)
Theorem negative_week_raises libm_pow libm_log (p : params64) (week : float) :
  let refusal {A} : res A :=
    Raise (ValueError [Str "Week must be non-negative, got "; Num week]) in
  (ExponentialModel.calculate_mileage libm_pow p week = refusal
     <-> (week <? 0) = true) /\
  (ExponentialModel.calculate_rate_of_change libm_pow libm_log p week = refusal
     <-> (week <? 0) = true) /\
  (LinearModel.calculate_mileage p week = refusal <-> (week <? 0) = true) /\
  (LinearModel.calculate_rate_of_change p week = refusal
     <-> (week <? 0) = true) /\
  (succeeds (ParameterValidator.validate_week_number week)
     <-> (week <? 0) = false).
Proof.
  intros refusal. subst refusal.
  unfold ParameterValidator.validate_week_number, succeeds,
    ExponentialModel.calculate_mileage,
    ExponentialModel.calculate_rate_of_change, LinearModel.calculate_mileage,
    LinearModel.calculate_rate_of_change, LinearModel._get_plateau_week,
    ExponentialModel.math_log, week_must_be_non_negative, raise_if, py_div.
  destruct (week <? 0); simpl.
  - repeat split; try reflexivity; try discriminate. now intros [? [=]].
  - destruct (b_parameter p =? 0); simpl;
      destruct (starting_mileage p =? target_mileage p); simpl;
      destruct (a_parameter p <=? 0); simpl;
      destruct (a_parameter p / b_parameter p =? 0); simpl;
      repeat split; try discriminate; eauto.
Qed.

Example nan_week_is_not_refused :
  LinearModel.calculate_mileage linear_sample nan = Return nan.
Proof. reflexivity. Qed.

End GuaranteesBinary64.

(** * Binary64: the linear model at week 0 *)

Section LinearStartBinary64.

#[local] Open Scope float_scope.
#[local] Open Scope py_scope.
Import B64.

Lemma SFcompare_refl x : x <> S754_nan -> SFcompare x x = Some Eq.
Proof.
  destruct x as [s|s| |s m e]; simpl; intros H.
  - reflexivity.
  - now destruct s.
  - contradiction.
  - rewrite Z.compare_refl.
    change (PosDef.Pos.compare_cont Eq m m) with (Pos.compare m m).
    rewrite Pos.compare_refl. now destruct s.
Qed.

Lemma is_finite_spec x :
  is_finite x = true ->
  (exists s, Prim2SF x = S754_zero s) \/ (exists s m e, Prim2SF x = S754_finite s m e).
Proof.
  unfold is_finite. rewrite andb_true_iff, !ltb_spec. unfold SFltb.
  change (Prim2SF neg_infinity) with (S754_infinity true).
  change (Prim2SF infinity) with (S754_infinity false).
  destruct (Prim2SF x) as [s|s| |s m e]; simpl.
  - eauto.
  - destruct s; intros [H1 H2]; discriminate.
  - intros [H1 H2]; discriminate.
  - eauto 6.
Qed.

(** Adding a finite slope times zero does not move a float that is not
    NaN, up to the sign of zero. *)
Lemma add_finite_times_zero (s x : float) :
  (0 <=? s) = true -> is_finite x = true -> (s + x * 0 =? s) = true.
Proof.
  intros Hs Hx.
  rewrite FloatAxioms.eqb_spec, add_spec, mul_spec.
  rewrite leb_spec in Hs. unfold SFleb in Hs.
  change (Prim2SF 0) with (S754_zero false) in *.
  unfold SFeqb.
  assert (Hsum : exists z,
            SF64mul (Prim2SF x) (S754_zero false) = S754_zero z).
  { destruct (is_finite_spec x Hx) as [[sx ->] | (sx & mx & ex & ->)];
      simpl; eauto. }
  destruct Hsum as [z ->].
  destruct (Prim2SF s) as [ss|ss| |ss ms es] eqn:E; try discriminate.
  - now destruct ss, z.
  - now destruct ss.
  - change (SF64add (S754_finite ss ms es) (S754_zero z))
      with (S754_finite ss ms es).
    now rewrite SFcompare_refl.
Qed.

(** X5. For a valid linear model whose slope [a / b] is a finite float,
    [calculate_mileage(0)] returns a float that is [==] to the starting
    mileage: week 0 is exact in binary64. *)
Theorem linear_mileage_starts_at_starting (p : params64) :
  LinearModel.valid p = true ->
  is_finite (a_parameter p / b_parameter p) = true ->
  exists m,
    LinearModel.calculate_mileage p 0 = Return m /\
    (m =? starting_mileage p) = true.
Proof.
  intros Hv Hrate.
  destruct (linear_valid_fields p Hv) as (_ & HS & HST & _ & Hb).
  unfold LinearModel.calculate_mileage, week_must_be_non_negative, raise_if.
  change (0 <? 0) with false. simpl.
  rewrite (py_div_nonzero _ _ (positive_nonzero _ Hb)). simpl.
  pose proof (add_finite_times_zero _ _ HS Hrate) as Heq.
  unfold py_min.
  rewrite <- (eqb_ltb_r _ _ (target_mileage p) (eqb_sym _ _ Heq)).
  rewrite (leb_ltb_false _ _ HST).
  eexists. split; [reflexivity|exact Heq].
Qed.

Lemma linear_mileage_starts_at_starting_witness :
  LinearModel.valid linear_third = true /\
  is_finite (1 / 3) = true /\
  exists m,
    LinearModel.calculate_mileage linear_third 0 = Return m /\
    (m =? 10) = true.
Proof.
  split; [reflexivity|]. split; [reflexivity|].
  exact (linear_mileage_starts_at_starting linear_third eq_refl eq_refl).
Defined.

(** When the slope overflows to [inf] the parameters are still valid, and
    week 0 gives NaN ([inf * 0]). *)
Example linear_steep_starts_at_nan :
  LinearModel.valid linear_steep = true /\
  is_finite (1e300 / 1e-300) = false /\
  LinearModel.calculate_mileage linear_steep 0 = Return nan.
Proof. repeat split; reflexivity. Qed.

End LinearStartBinary64.

(** * Binary64: what the factory returns and what the validators skip *)

Section FactoryBinary64.

#[local] Open Scope float_scope.
#[local] Open Scope py_scope.
Import B64.

(** X6. A model that [ModelFactory.create] returns holds exactly the
    four numbers it was given, its [model_type] is the lower-cased tag,
    and the numbers passed every check of its class: the target is not
    [<= 0], the start is not [< 0], [b] is not [<= 0], and [0 < a < 1]
    with the start not [>=] the target (exponential) or [a] not [<= 0]
    with the start not [>] the target (linear). *)
Theorem created_model_is_checked (tag : string) (T S a b : float)
    (m : BaseTrainingModel float) :
  ModelFactory.create tag T S a b = Return m ->
  params m = Build_ModelParameters T S a b /\
  model_type m = lower tag /\
  (T <=? 0) = false /\ (S <? 0) = false /\ (b <=? 0) = false /\
  match class_of m with
  | ExponentialClass =>
      (0 <? a) = true /\ (a <? 1) = true /\ geb S T = false
  | LinearClass => (a <=? 0) = false /\ gtb S T = false
  end.
Proof.
  unfold ModelFactory.create.
  destruct (dict_contains (lower tag) ModelFactory._models) eqn:Hreg;
    [|discriminate].
  apply registry_keys in Hreg. simpl negb. cbv iota.
  unfold new_ModelParameters, __post_init__, raise_if, geb, gtb.
  simpl.
  destruct (T <=? 0); [discriminate|]. simpl.
  destruct (S <? 0); [discriminate|]. simpl.
  destruct Hreg as [-> | ->]; simpl;
    unfold ExponentialModel.new, LinearModel.new, __init__,
      ExponentialModel._validate_parameters, LinearModel._validate_parameters,
      raise_if, geb, gtb; simpl.
  - destruct (0 <? a); [|discriminate].
    destruct (a <? 1); [|discriminate]. simpl.
    destruct (b <=? 0); [discriminate|]. simpl.
    destruct (T <=? S); [discriminate|]. simpl.
    intros [= <-]. repeat split; reflexivity.
  - destruct (a <=? 0); [discriminate|]. simpl.
    destruct (b <=? 0); [discriminate|]. simpl.
    destruct (T <? S); [discriminate|]. simpl.
    intros [= <-]. repeat split; reflexivity.
Qed.

Lemma created_model_is_checked_witness :
  ModelFactory.create "Linear" 50 10 2 1
    = Return (Build_BaseTrainingModel LinearClass linear_sample) /\
  model_type (Build_BaseTrainingModel LinearClass linear_sample)
    = "linear"%string.
Proof.
  split; [reflexivity|].
  exact (proj1 (proj2
    (created_model_is_checked "Linear" 50 10 2 1
       (Build_BaseTrainingModel LinearClass linear_sample) eq_refl))).
Defined.

(** X7. The validators compare the model type as it is written.  For a
    type that is neither [exponential] nor [linear] (an upper-case tag, a
    misspelt one) [validate_mileage_range] passes exactly when
    [ModelParameters] would accept the target and the start, and
    [validate_model_parameters] passes exactly when [b] is not [<= 0]:
    neither looks at [a] or at the order of start and target. *)
Theorem validators_skip_other_kinds (kind : string) (T S a b : float) :
  kind <> "exponential"%string -> kind <> "linear"%string ->
  (succeeds (ParameterValidator.validate_mileage_range S T kind)
     <-> succeeds (new_ModelParameters T S a b)) /\
  (succeeds (ParameterValidator.validate_model_parameters a b kind)
     <-> (b <=? 0) = false).
Proof.
  intros He Hl.
  apply String.eqb_neq in He, Hl.
  unfold ParameterValidator.validate_mileage_range,
    ParameterValidator.validate_model_parameters, new_ModelParameters,
    __post_init__, raise_if, succeeds.
  rewrite He, Hl. simpl.
  destruct (T <=? 0), (S <? 0), (b <=? 0); simpl;
    (split; split; [intros [? H]| intros [? H] | intros [? H] | intros H]);
    try discriminate; eauto.
Qed.

Lemma validators_skip_other_kinds_witness :
  (succeeds (ParameterValidator.validate_mileage_range 50 50 "EXPONENTIAL")
     <-> succeeds (new_ModelParameters 50 50 7 4)) /\
  (succeeds (ParameterValidator.validate_model_parameters 7 4 "EXPONENTIAL")
     <-> (4 <=? 0) = false).
Proof.
  refine (validators_skip_other_kinds "EXPONENTIAL" 50 50 7 4 _ _);
    discriminate.
Defined.

(** The same numbers under the upper-case tag: both validators pass, and
    the factory, which lower-cases the tag, refuses them. *)
Example upper_case_tag_splits_validators_and_factory :
  succeedsb (ParameterValidator.validate_mileage_range 50 50 "EXPONENTIAL") = true /\
  succeedsb (ParameterValidator.validate_model_parameters 7 4 "EXPONENTIAL") = true /\
  ModelFactory.create "EXPONENTIAL" 50 50 7 4 =
    Raise (ValueError [Str "Parameter 'a' must be in (0, 1), got "; Num 7]).
Proof. repeat split; reflexivity. Qed.

End FactoryBinary64.

(** * [DataValidator.validate_request_parameters] *)

Section RequestParameters.

#[local] Open Scope py_scope.
Import B64.
Import DataValidator.

Lemma dict_set_fresh (key : string) (value : py_value) (d : items) :
  ~ In key (map fst d) -> dict_set key value d = d ++ [(key, value)].
Proof.
  induction d as [|[k v] d IH]; simpl; intros Hfresh; [reflexivity|].
  destruct (String.eqb_spec key k) as [->|Hne]; [tauto|].
  now rewrite IH by tauto.
Qed.

Lemma clean_item_kept cleaned item :
  refused item = false ->
  clean_item cleaned item =
    Return (if not_None item then dict_set (fst item) (snd item) cleaned
            else cleaned).
Proof.
  destruct item as [key value]. unfold refused, clean_item, not_None, raise_if.
  cbn [fst snd]. destruct (is_None value); cbn [negb andb]; [reflexivity|].
  destruct (list_contains key numeric_keys); cbn [andb]; [|reflexivity].
  now intros ->.
Qed.

Lemma clean_item_refused cleaned item :
  refused item = true ->
  clean_item cleaned item =
    Raise (ValueError (must_be_numeric (fst item) (snd item))).
Proof.
  destruct item as [key value]. unfold refused, clean_item, raise_if.
  cbn [fst snd]. rewrite !andb_true_iff. intros [[-> ->] ->]. reflexivity.
Qed.

Lemma clean_items_kept (params cleaned : items) :
  NoDup (map fst params) ->
  (forall key, In key (map fst cleaned) -> ~ In key (map fst params)) ->
  forallb (fun item => negb (refused item)) params = true ->
  clean_items params cleaned = Return (cleaned ++ filter not_None params).
Proof.
  revert cleaned.
  induction params as [|item params IH]; simpl; intros cleaned Hnodup Hdisj Hok.
  - now rewrite app_nil_r.
  - apply andb_true_iff in Hok as [Hitem Hok].
    apply negb_true_iff in Hitem.
    rewrite (clean_item_kept _ _ Hitem). simpl.
    inversion Hnodup as [|? ? Hnotin Hnodup']; subst.
    destruct (not_None item).
    + rewrite dict_set_fresh by (intros Hin; apply (Hdisj _ Hin); now left).
      rewrite <- surjective_pairing.
      rewrite IH; [now rewrite <- app_assoc|assumption| |assumption].
      intros key Hin Hin'. rewrite map_app, in_app_iff in Hin.
      destruct Hin as [Hin | [<- | []]]; [|contradiction].
      apply (Hdisj _ Hin). now right.
    + apply IH; [assumption| |assumption].
      intros key Hin Hin'. apply (Hdisj _ Hin). now right.
Qed.

Lemma clean_items_refused (before after cleaned : items) item :
  forallb (fun item => negb (refused item)) before = true ->
  refused item = true ->
  clean_items (before ++ item :: after) cleaned =
    Raise (ValueError (must_be_numeric (fst item) (snd item))).
Proof.
  revert cleaned.
  induction before as [|first before IH]; simpl; intros cleaned Hok Hbad.
  - now rewrite (clean_item_refused _ _ Hbad).
  - apply andb_true_iff in Hok as [Hfirst Hok].
    apply negb_true_iff in Hfirst.
    rewrite (clean_item_kept _ _ Hfirst). simpl. now apply IH.
Qed.

(** X8. For a dict in which no numeric field ([target_mileage],
    [starting_mileage], [a_parameter], [b_parameter]) holds a value that is
    neither [None] nor a number, [validate_request_parameters] returns the
    items whose value is not [None], in their order and with their values;
    and validating the result again returns it unchanged. *)
Theorem validate_request_parameters_drops_None (params : items) :
  NoDup (map fst params) ->
  forallb (fun item => negb (refused item)) params = true ->
  let cleaned := filter not_None params in
  validate_request_parameters params = Return cleaned /\
  validate_request_parameters cleaned = Return cleaned.
Proof.
  intros Hnodup Hok cleaned.
  assert (Hfirst : validate_request_parameters params = Return cleaned).
  { unfold validate_request_parameters.
    now rewrite clean_items_kept by (auto; intros ? []). }
  split; [exact Hfirst|].
  unfold validate_request_parameters.
  rewrite clean_items_kept.
  - simpl. f_equal. subst cleaned. clear.
    induction params as [|item params IH]; simpl; [reflexivity|].
    destruct (not_None item) eqn:E; simpl; [rewrite E|]; now rewrite ?IH.
  - subst cleaned. clear -Hnodup.
    induction params as [|item params IH]; simpl; [constructor|].
    inversion Hnodup as [|? ? Hnotin Hnodup']; subst.
    destruct (not_None item); simpl; [constructor|]; auto.
    intros Hin. apply Hnotin.
    apply in_map_iff in Hin as (x & <- & Hx).
    apply filter_In in Hx as [Hx _]. now apply in_map.
  - intros ? [].
  - subst cleaned. clear -Hok.
    induction params as [|item params IH]; simpl in *; [reflexivity|].
    apply andb_true_iff in Hok as [Hitem Hok].
    destruct (not_None item); simpl; rewrite ?Hitem; auto.
Qed.

Lemma validate_request_parameters_drops_None_witness :
  validate_request_parameters
    [("target_mileage", PyFloat 50); ("starting_mileage", PyNone);
     ("a_parameter", PyFloat 0.8)]%string%float
  = Return [("target_mileage", PyFloat 50); ("a_parameter", PyFloat 0.8)]%string%float.
Proof.
  refine (proj1 (validate_request_parameters_drops_None
    [("target_mileage", PyFloat 50); ("starting_mileage", PyNone);
     ("a_parameter", PyFloat 0.8)]%string%float _ eq_refl)).
  repeat constructor; simpl; intuition discriminate.
Defined.

(** X9. [validate_request_parameters] raises exactly when some numeric
    field holds a value that is neither [None] nor a number, and then the
    [ValueError] names the first such field and the type of its value;
    fields that are not numeric are never refused. *)
Theorem validate_request_parameters_refuses (params : items) :
  (forall before item after,
     params = before ++ item :: after ->
     forallb (fun item => negb (refused item)) before = true ->
     refused item = true ->
     validate_request_parameters params =
       Raise (ValueError [Str (fst item); Str " must be numeric, got ";
                          Str (type_name_of (snd item))])) /\
  (succeeds (validate_request_parameters params) ->
   forallb (fun item => negb (refused item)) params = true).
Proof.
  split.
  - intros before item after -> Hok Hbad.
    now apply clean_items_refused.
  - unfold validate_request_parameters. generalize (@nil (string * py_value)).
    induction params as [|item params IH]; simpl; intros cleaned Hs;
      [reflexivity|].
    destruct (refused item) eqn:E; simpl.
    + rewrite (clean_item_refused _ _ E) in Hs. simpl in Hs.
      destruct Hs as [? [=]].
    + rewrite (clean_item_kept _ _ E) in Hs. simpl in Hs. eauto.
Qed.

Example validate_request_parameters_names_the_string :
  validate_request_parameters [("target_mileage", PyStr "fifty")]%string
  = Raise (ValueError [Str "target_mileage"; Str " must be numeric, got "; Str "str"]).
Proof. reflexivity. Qed.

(** [True] is an [int] for [isinstance], so a boolean passes as a number. *)
Example validate_request_parameters_keeps_a_bool :
  validate_request_parameters [("b_parameter", PyBool true)]%string
  = Return [("b_parameter", PyBool true)]%string.
Proof. reflexivity. Qed.

End RequestParameters.

(** * The request handlers: resolving the model *)

Section ResolvingTheModel.

#[local] Open Scope float_scope.
#[local] Open Scope py_scope.
Import B64.

Lemma dict_get_set {V} (k key : string) (value : V) (d : list (string * V)) :
  dict_get k (dict_set key value d) =
    if String.eqb k key then Some value else dict_get k d.
Proof.
  induction d as [|[k' v'] d IH]; simpl.
  - destruct (String.eqb k key); reflexivity.
  - destruct (String.eqb_spec key k') as [<-|Hne]; simpl.
    + destruct (String.eqb k key); reflexivity.
    + rewrite IH. destruct (String.eqb_spec k k') as [->|Hne'].
      * destruct (String.eqb_spec k' key) as [->|]; [contradiction|reflexivity].
      * reflexivity.
Qed.

Lemma py_or_zero z default :
  (z =? 0) = true -> Routes.py_or (Some z) default = Routes.py_or None default.
Proof. unfold Routes.py_or. now intros ->. Qed.

(** X10. An override that compares equal to zero counts as no override:
    [get_model_params], and with it the model every handler builds, is the
    same for a request that sets a field to [0.0] (or [-0.0]) and for the
    request that leaves the field [None].  A start of [0], which the
    request schema allows, is replaced by the configured default. *)
Theorem zero_override_is_ignored (request : Routes.request_dict)
    (settings : Settings.Settings) (key : string) (z : float) :
  (z =? 0) = true ->
  Routes.get_model_params (dict_set key (Some z) request) settings
    = Routes.get_model_params (dict_set key None request) settings /\
  Routes.create_model (dict_set key (Some z) request) settings
    = Routes.create_model (dict_set key None request) settings /\
  Routes.starting_mileage
    (Routes.get_model_params (dict_set "starting_mileage" (Some z) request) settings)
    = Settings.starting_mileage settings.
Proof.
  intros Hz.
  assert (Hget : forall k default,
            Routes.py_or (Routes.get (dict_set key (Some z) request) k) default
            = Routes.py_or (Routes.get (dict_set key None request) k) default).
  { intros k default. unfold Routes.get. rewrite !dict_get_set.
    destruct (String.eqb k key); [now apply py_or_zero|reflexivity]. }
  assert (Hparams :
            Routes.get_model_params (dict_set key (Some z) request) settings
            = Routes.get_model_params (dict_set key None request) settings).
  { unfold Routes.get_model_params. now rewrite !Hget. }
  split; [exact Hparams|]. split.
  - unfold Routes.create_model. now rewrite Hparams.
  - unfold Routes.get_model_params, Routes.get; simpl.
    rewrite dict_get_set. simpl. now apply py_or_zero.
Qed.

Lemma zero_override_is_ignored_witness :
  (0 =? 0) = true /\
  Routes.create_model [("starting_mileage"%string, Some 0)] Routes.default_settings
    = Return (Build_BaseTrainingModel ExponentialClass exponential_sample).
Proof.
  split; [reflexivity|].
  exact (eq_trans
    (proj1 (proj2 (zero_override_is_ignored
       [("starting_mileage"%string, None)] Routes.default_settings
       "starting_mileage" 0 eq_refl)))
    eq_refl).
Defined.

(** An override that is not zero is used, NaN included. *)
Example non_zero_override_is_used :
  Routes.starting_mileage
    (Routes.get_model_params [("starting_mileage"%string, Some 15)]
       Routes.default_settings) = 15 /\
  Routes.starting_mileage
    (Routes.get_model_params [("starting_mileage"%string, Some nan)]
       Routes.default_settings) = nan.
Proof. split; reflexivity. Qed.

(** X11. [Settings.validate_equation_choice] accepts a choice exactly
    when its lower-case form is a key of the factory's registry, and it
    returns that key.  With a choice it returned, the model a handler builds
    is never refused for its type: [ModelFactory.create] goes on to check
    the numbers. *)
Theorem validated_choice_is_a_registry_key (v : string) :
  (succeeds (Settings.validate_equation_choice v)
     <-> dict_contains (lower v) ModelFactory._models = true) /\
  (forall c,
     Settings.validate_equation_choice v = Return c ->
     c = lower v /\
     (c = "exponential"%string \/ c = "linear"%string) /\
     Settings.validate_equation_choice c = Return c /\
     forall T S a b,
       ModelFactory.create c T S a b =
         bind (new_ModelParameters T S a b)
           (if String.eqb c "exponential" then ExponentialModel.new
            else LinearModel.new)).
Proof.
  assert (Hin : DataValidator.list_contains (lower v) Settings.valid_choices
                = dict_contains (lower v) ModelFactory._models).
  { unfold DataValidator.list_contains, Settings.valid_choices, dict_contains,
      ModelFactory._models; simpl.
    destruct (String.eqb (lower v) "exponential"); [reflexivity|].
    destruct (String.eqb (lower v) "linear"); reflexivity. }
  unfold Settings.validate_equation_choice, succeeds. rewrite Hin.
  destruct (dict_contains (lower v) ModelFactory._models) eqn:Hreg; simpl.
  - split; [split; eauto|].
    intros c [= <-]. apply registry_keys in Hreg.
    split; [reflexivity|]. split; [exact Hreg|].
    destruct Hreg as [-> | ->]; split; reflexivity.
  - split; [split; [intros [? [=]]|discriminate]|discriminate].
Qed.

Lemma validated_choice_is_a_registry_key_witness :
  Settings.validate_equation_choice "Linear" = Return "linear"%string /\
  forall T S a b,
    ModelFactory.create "linear" T S a b =
      bind (new_ModelParameters T S a b) LinearModel.new.
Proof.
  split; [reflexivity|].
  exact (proj2 (proj2 (proj2
    (proj2 (validated_choice_is_a_registry_key "Linear") "linear"%string eq_refl)))).
Defined.

Example invalid_equation_choice :
  Settings.validate_equation_choice "quadratic" =
    Raise (ValueError [Str "Invalid equation choice. Must be one of: ";
                       Str "['exponential', 'linear']"]).
Proof. reflexivity. Qed.

End ResolvingTheModel.

(** * The exact reading: the shape of the exponential curve *)

Section ExactExponentialShape.

#[local] Open Scope R_scope.
Import Exact.







End ExactExponentialShape.

(** * The exact reading: the rate of change is the derivative *)

Section ExactDerivatives.

#[local] Open Scope R_scope.
Import Exact.




End ExactDerivatives.

(** * The exact reading: the shape of the linear curve *)

Section ExactLinearShape.

#[local] Open Scope R_scope.
Import Exact.








End ExactLinearShape.

(** * Binary64: the inverse of the target *)

Section LinearTargetBinary64.

#[local] Open Scope float_scope.
#[local] Open Scope py_scope.
Import B64.

Lemma compared_is_equal_to_itself x y : (x <? y) = true -> (y =? y) = true.
Proof.
  rewrite ltb_spec, FloatAxioms.eqb_spec. unfold SFltb, SFeqb.
  destruct (Prim2SF y) as [s|s| |s m e] eqn:E.
  - reflexivity.
  - now destruct s.
  - destruct (Prim2SF x); discriminate.
  - intros _. now rewrite SFcompare_refl.
Qed.

(** X19. In binary64 the linear inverse of the target is the plateau
    week itself: for a valid linear model whose plateau week is [pw],
    [calculate_week(target)] returns [pw], bit for bit. *)
Theorem linear_week_of_target_is_plateau (p : params64) (pw : float) :
  LinearModel.valid p = true ->
  LinearModel._get_plateau_week p = Return pw ->
  LinearModel.calculate_week p (target_mileage p) = Return (Some pw).
Proof.
  intros Hv Hpw.
  destruct (linear_valid_fields p Hv) as (HT & _ & HST & _ & Hb).
  pose proof (compared_is_equal_to_itself _ _ HT) as HTT.
  unfold LinearModel.calculate_week.
  rewrite HST, (eqb_leb _ _ HTT). simpl.
  destruct (target_mileage p =? starting_mileage p) eqn:E.
  - apply eqb_sym in E. unfold LinearModel._get_plateau_week in Hpw.
    rewrite E in Hpw. now injection Hpw as <-.
  - rewrite Hpw.
    unfold LinearModel._get_plateau_week in Hpw.
    destruct (starting_mileage p =? target_mileage p) eqn:E'.
    { apply eqb_sym in E'. congruence. }
    rewrite (py_div_nonzero _ _ (positive_nonzero _ Hb)) in *. simpl in *.
    rewrite Hpw. simpl. rewrite HTT.
    destruct (pw <=? pw); reflexivity.
Qed.

Lemma linear_week_of_target_is_plateau_witness :
  LinearModel.valid linear_third = true /\
  LinearModel._get_plateau_week linear_third = Return 120 /\
  LinearModel.calculate_week linear_third 50 = Return (Some 120).
Proof.
  split; [reflexivity|]. split; [reflexivity|].
  exact (linear_week_of_target_is_plateau linear_third 120 eq_refl eq_refl).
Defined.

End LinearTargetBinary64.
